(** * Control logic of the drip coffee maker (src/api.py, src/main.py)

    The program polls three sensors through an abstract hardware interface
    and drives four actuators.  The embedding keeps the shape of the Python
    code: the abstract class [CoffeeMakerApi] is a type class over the type
    of hardware states, every method that touches the hardware or the
    boiler flag is a computation in a small state monad, observers are
    records with an [on_observe] field, and publishers carry their list of
    observers in registration order.

    Hardware calls are taken to return normally: the interface declares no
    exception and the core contains no [raise]. *)

From Stdlib Require Import ZArith List Bool Lia.
Import ListNotations.
Open Scope Z_scope.

(** ** src/api.py: the status and command codes *)

Definition WARMER_EMPTY : Z := 0.
Definition POT_EMPTY : Z := 1.
Definition POT_NOT_EMPTY : Z := 2.

Definition BOILER_EMPTY : Z := 0.
Definition BOILER_NOT_EMPTY : Z := 1.

Definition BREW_BUTTON_PUSHED : Z := 0.
Definition BREW_BUTTON_NOT_PUSHED : Z := 1.

Definition BOILER_ON : Z := 0.
Definition BOILER_OFF : Z := 1.

Definition WARMER_ON : Z := 0.
Definition WARMER_OFF : Z := 1.

Definition INDICATOR_ON : Z := 0.
Definition INDICATOR_OFF : Z := 1.

Definition VALVE_OPEN : Z := 0.
Definition VALVE_CLOSED : Z := 1.

(** ** src/api.py: class CoffeeMakerApi

    The three status properties read a sensor: they return the status and
    the hardware state after the read (the brew button resets its latch on
    every read).  The four setters take the command code. *)

Class CoffeeMakerApi (Hw : Type) : Type := {
  warmer_plate_status : Hw -> Z * Hw;
  boiler_status : Hw -> Z * Hw;
  brew_button_status : Hw -> Z * Hw;
  set_boiler_state : Z -> Hw -> Hw;
  set_warmer_state : Z -> Hw -> Hw;
  set_indicator_state : Z -> Hw -> Hw;
  set_relief_valve_state : Z -> Hw -> Hw
}.

(** ** The state threaded through src/main.py

    [hw] is the hardware behind the [api] object every component shares;
    [boiler_is_on] is the field [Boiler._is_on] of the one [Boiler] that
    [set_up_and_run] creates. *)

Record State (Hw : Type) : Type := mkState {
  hw : Hw;
  boiler_is_on : bool
}.
Arguments mkState {Hw} _ _.
Arguments hw {Hw} _.
Arguments boiler_is_on {Hw} _.

Definition M (Hw A : Type) : Type := State Hw -> A * State Hw.

Definition ret {Hw A : Type} (a : A) : M Hw A := fun st => (a, st).

Definition bind {Hw A B : Type} (c : M Hw A) (k : A -> M Hw B) : M Hw B :=
  fun st => let (a, st') := c st in k a st'.

Notation "x <- c ;; k" := (bind c (fun x => k))
  (at level 61, c at next level, right associativity).
Notation "c ;; k" := (bind c (fun _ => k))
  (at level 61, right associativity).

Definition exec {Hw A : Type} (c : M Hw A) (st : State Hw) : State Hw := snd (c st).
Definition eval {Hw A : Type} (c : M Hw A) (st : State Hw) : A := fst (c st).

(** [for o in l: f(o)] *)
Fixpoint for_each {Hw A : Type} (l : list A) (f : A -> M Hw unit) : M Hw unit :=
  match l with
  | [] => ret tt
  | o :: l' => f o ;; for_each l' f
  end.

Section Core.

Context {Hw : Type} {API : CoffeeMakerApi Hw}.

Definition api_read (f : Hw -> Z * Hw) : M Hw Z :=
  fun st => let (v, h) := f (hw st) in (v, mkState h (boiler_is_on st)).

Definition api_write (f : Hw -> Hw) : M Hw unit :=
  fun st => (tt, mkState (f (hw st)) (boiler_is_on st)).

(** *** class IObserver *)

Record IObserver : Type := mkObserver {
  on_observe : Z -> M Hw unit
}.

(** *** class IStatusPublisher

    [_get_status] is the abstract method the three sensor classes override.
    [add_observer] appends to the list in place; here it returns the
    publisher with the longer list. *)

Record IStatusPublisher : Type := mkPublisher {
  _observers : list IObserver;
  _get_status : M Hw Z
}.

Definition check_status (self : IStatusPublisher) : M Hw unit :=
  new_status <- _get_status self ;;
  for_each (_observers self) (fun o => on_observe o new_status).

Definition add_observer (self : IStatusPublisher) (observer : IObserver)
  : IStatusPublisher :=
  mkPublisher (_observers self ++ [observer]) (_get_status self).

(** *** class WarmerPlateSensor, BoilerSensor, ButtonSensor *)

Definition WarmerPlateSensor (observers : list IObserver) : IStatusPublisher :=
  mkPublisher observers (api_read warmer_plate_status).

Definition pot_present (self : IStatusPublisher) : M Hw bool :=
  s <- _get_status self ;; ret (negb (s =? WARMER_EMPTY)).

Definition BoilerSensor (observers : list IObserver) : IStatusPublisher :=
  mkPublisher observers (api_read boiler_status).

Definition is_empty (self : IStatusPublisher) : M Hw bool :=
  s <- _get_status self ;; ret (s =? BOILER_EMPTY).

Definition ButtonSensor (observers : list IObserver) : IStatusPublisher :=
  mkPublisher observers (api_read brew_button_status).

(** *** class WarmerPlate

    [WarmerPlate], [Valve] and [IndicatorLight] hold nothing but the shared
    [api], so their methods are computations without a [self]. *)

Definition WarmerPlate_turn_on : M Hw unit :=
  api_write (set_warmer_state WARMER_ON).

Definition WarmerPlate_turn_off : M Hw unit :=
  api_write (set_warmer_state WARMER_OFF).

Definition on_observe_warmer_plate (new_status : Z) : M Hw unit :=
  if new_status =? POT_NOT_EMPTY then WarmerPlate_turn_on
  else WarmerPlate_turn_off.

Definition WarmerPlateObserver : IObserver :=
  mkObserver (fun new_status => on_observe_warmer_plate new_status).

(** *** class Valve *)

Definition Valve_open : M Hw unit :=
  api_write (set_relief_valve_state VALVE_OPEN).

Definition Valve_close : M Hw unit :=
  api_write (set_relief_valve_state VALVE_CLOSED).

Definition WarmerPlateStatusValveObserver : IObserver :=
  mkObserver (fun new_status =>
    if new_status =? WARMER_EMPTY then Valve_open else Valve_close).

(** *** class Boiler

    The boiler keeps its two sensors; it only ever calls their [is_empty]
    and [pot_present], which read [_get_status] and never look at the
    observer list. *)

Record Boiler : Type := mkBoiler {
  _boiler_sensor : IStatusPublisher;
  _warmer_plate_sensor : IStatusPublisher
}.

Definition set_is_on (b : bool) : M Hw unit :=
  fun st => (tt, mkState (hw st) b).

Definition is_on : M Hw bool := fun st => (boiler_is_on st, st).

(** [not self._boiler_sensor.is_empty and self._warmer_plate_sensor.pot_present]:
    the right operand is evaluated only when the left one is true. *)
Definition can_turn_on (self : Boiler) : M Hw bool :=
  e <- is_empty (_boiler_sensor self) ;;
  if negb e then pot_present (_warmer_plate_sensor self) else ret false.

Definition Boiler_turn_on (self : Boiler) : M Hw unit :=
  c <- can_turn_on self ;;
  if c then
    Valve_close ;;
    api_write (set_boiler_state BOILER_ON) ;;
    set_is_on true
  else ret tt.

Definition Boiler_turn_off (self : Boiler) : M Hw unit :=
  api_write (set_boiler_state BOILER_OFF) ;;
  set_is_on false.

Definition BoilerSensorObserver (boiler : Boiler) : IObserver :=
  mkObserver (fun new_status =>
    if new_status =? BOILER_EMPTY then Boiler_turn_off boiler else ret tt).

Definition BoilerButtonStatusObserver (boiler : Boiler) : IObserver :=
  mkObserver (fun new_status =>
    if new_status =? BREW_BUTTON_PUSHED then Boiler_turn_on boiler else ret tt).

(** *** class IndicatorLight *)

Definition IndicatorLight_turn_on : M Hw unit :=
  api_write (set_indicator_state INDICATOR_ON).

Definition IndicatorLight_turn_off : M Hw unit :=
  api_write (set_indicator_state INDICATOR_OFF).

Definition on_warmer_plate_status (status : Z) : M Hw unit :=
  if status =? POT_NOT_EMPTY then IndicatorLight_turn_on
  else IndicatorLight_turn_off.

Definition IndicatorLightWarmerPlateObserver : IObserver :=
  mkObserver (fun new_status => on_warmer_plate_status new_status).

(** *** run_event_loop

    One pass of the [for] loop over the publishers, and the [while True]
    loop cut after [n] passes.  [time.sleep] touches neither the hardware
    nor the boiler flag. *)

Definition poll_cycle (publishers : list IStatusPublisher) : M Hw unit :=
  for_each publishers check_status.

Fixpoint run_event_loop (n : nat) (publishers : list IStatusPublisher)
  : M Hw unit :=
  match n with
  | O => ret tt
  | S n' => poll_cycle publishers ;; run_event_loop n' publishers
  end.

(** *** set_up_and_run *)

Record Wiring : Type := mkWiring {
  warmer_plate_sensor : IStatusPublisher;
  boiler_sensor : IStatusPublisher;
  button_sensor : IStatusPublisher;
  boiler : Boiler
}.

Definition set_up : Wiring :=
  let warmer_plate_sensor := WarmerPlateSensor [] in
  let boiler_sensor := BoilerSensor [] in
  let button_sensor := ButtonSensor [] in
  let warmer_plate_sensor :=
    add_observer warmer_plate_sensor WarmerPlateStatusValveObserver in
  let boiler := mkBoiler boiler_sensor warmer_plate_sensor in
  let boiler_sensor := add_observer boiler_sensor (BoilerSensorObserver boiler) in
  let button_sensor :=
    add_observer button_sensor (BoilerButtonStatusObserver boiler) in
  let warmer_plate_sensor :=
    add_observer warmer_plate_sensor WarmerPlateObserver in
  let warmer_plate_sensor :=
    add_observer warmer_plate_sensor IndicatorLightWarmerPlateObserver in
  mkWiring warmer_plate_sensor boiler_sensor button_sensor boiler.

Definition publishers_of (w : Wiring) : list IStatusPublisher :=
  [warmer_plate_sensor w; boiler_sensor w; button_sensor w].

(** [Boiler.__init__] sets [_is_on = False]; the loop then runs on the
    publishers in the order warmer plate, boiler, button. *)
Definition set_up_and_run (n : nat) (api : Hw) : State Hw :=
  exec (run_event_loop n (publishers_of set_up)) (mkState api false).

End Core.

(** ** A hardware that records every call

    The hardware state is the list of calls made so far, oldest first.  What
    a sensor answers may depend on everything that happened before the
    read, which covers the latch of the brew button as well as a boiler
    that runs dry while heating. *)

Inductive event : Type :=
| Read_warmer_plate (v : Z)
| Read_boiler (v : Z)
| Read_brew_button (v : Z)
| Set_boiler (v : Z)
| Set_warmer (v : Z)
| Set_indicator (v : Z)
| Set_relief_valve (v : Z).

Abbreviation Trace := (list event).

Record Sensors : Type := mkSensors {
  warmer_plate_reading : Trace -> Z;
  boiler_reading : Trace -> Z;
  brew_button_reading : Trace -> Z
}.

Definition recording_read (reading : Trace -> Z) (tag : Z -> event)
  (t : Trace) : Z * Trace :=
  (reading t, t ++ [tag (reading t)]).

Definition recording_write (tag : Z -> event) (v : Z) (t : Trace) : Trace :=
  t ++ [tag v].

Definition RecordingApi (env : Sensors) : CoffeeMakerApi Trace := {|
  warmer_plate_status := recording_read (warmer_plate_reading env) Read_warmer_plate;
  boiler_status := recording_read (boiler_reading env) Read_boiler;
  brew_button_status := recording_read (brew_button_reading env) Read_brew_button;
  set_boiler_state := recording_write Set_boiler;
  set_warmer_state := recording_write Set_warmer;
  set_indicator_state := recording_write Set_indicator;
  set_relief_valve_state := recording_write Set_relief_valve
|}.

Definition is_write (e : event) : bool :=
  match e with
  | Read_warmer_plate _ | Read_boiler _ | Read_brew_button _ => false
  | _ => true
  end.

Definition writes (t : Trace) : Trace := filter is_write t.

(** The commanded state of an actuator is the argument of the last write
    to it, if there was one. *)

Definition last_command (sel : event -> option Z) (t : Trace) : option Z :=
  fold_left (fun acc e => match sel e with Some v => Some v | None => acc end)
            t None.

Definition boiler_command (e : event) : option Z :=
  match e with Set_boiler v => Some v | _ => None end.
Definition warmer_command (e : event) : option Z :=
  match e with Set_warmer v => Some v | _ => None end.
Definition indicator_command (e : event) : option Z :=
  match e with Set_indicator v => Some v | _ => None end.
Definition valve_command (e : event) : option Z :=
  match e with Set_relief_valve v => Some v | _ => None end.

Definition boiler_state (t : Trace) : option Z := last_command boiler_command t.
Definition warmer_state (t : Trace) : option Z := last_command warmer_command t.
Definition indicator_state (t : Trace) : option Z := last_command indicator_command t.
Definition valve_state (t : Trace) : option Z := last_command valve_command t.

Record Commanded : Type := mkCommanded {
  cmd_boiler : option Z;
  cmd_warmer : option Z;
  cmd_indicator : option Z;
  cmd_valve : option Z
}.

Definition commanded (t : Trace) : Commanded :=
  mkCommanded (boiler_state t) (warmer_state t) (indicator_state t) (valve_state t).

(** What the two sensors answer when [Boiler.turn_on] is called at trace
    [t]: the boiler sensor is asked first, the warmer plate right after. *)

Definition boiler_report (env : Sensors) (t : Trace) : Z :=
  boiler_reading env t.

Definition warmer_plate_report (env : Sensors) (t : Trace) : Z :=
  warmer_plate_reading env (t ++ [Read_boiler (boiler_reading env t)]).

Definition boiler_not_empty (env : Sensors) (t : Trace) : Prop :=
  boiler_report env t <> BOILER_EMPTY.

Definition plate_has_pot (env : Sensors) (t : Trace) : Prop :=
  warmer_plate_report env t <> WARMER_EMPTY.

(** A scripted environment for closed examples: each sensor answers a fixed
    value whatever happened before. *)
Definition constant_sensors (w b p : Z) : Sensors :=
  mkSensors (fun _ => w) (fun _ => b) (fun _ => p).

(** * Properties *)

(** ** Equations of the monad and of the recording hardware *)

Lemma exec_bind {Hw A B} (c : M Hw A) (k : A -> M Hw B) (st : State Hw) :
  exec (bind c k) st = exec (k (eval c st)) (exec c st).
Proof. unfold exec, eval, bind. destruct (c st); reflexivity. Qed.

Lemma eval_bind {Hw A B} (c : M Hw A) (k : A -> M Hw B) (st : State Hw) :
  eval (bind c k) st = eval (k (eval c st)) (exec c st).
Proof. unfold exec, eval, bind. destruct (c st); reflexivity. Qed.

Lemma last_command_snoc (sel : event -> option Z) (t : Trace) (e : event) :
  last_command sel (t ++ [e]) =
  match sel e with Some v => Some v | None => last_command sel t end.
Proof. unfold last_command. rewrite fold_left_app. reflexivity. Qed.

Lemma writes_app (t u : Trace) : writes (t ++ u) = writes t ++ writes u.
Proof. apply filter_app. Qed.

(** Decide a goal about status and command codes once the test on the
    status has been turned into an equation. *)
Ltac unfold_codes :=
  unfold WARMER_EMPTY, POT_EMPTY, POT_NOT_EMPTY, BOILER_EMPTY, BOILER_NOT_EMPTY,
    BREW_BUTTON_PUSHED, BREW_BUTTON_NOT_PUSHED, BOILER_ON, BOILER_OFF,
    WARMER_ON, WARMER_OFF, INDICATOR_ON, INDICATOR_OFF, VALVE_OPEN,
    VALVE_CLOSED in *.

Ltac by_codes :=
  repeat split; intros; unfold_codes;
  solve [ reflexivity | congruence | lia | tauto ].

Ltac case_status s c :=
  let E := fresh "E" in
  destruct (s =? c) eqn:E; [apply Z.eqb_eq in E | apply Z.eqb_neq in E].

Section Recording.

Variable env : Sensors.

Let St : Type := State Trace.
#[local] Hint Extern 0 (CoffeeMakerApi _) =>
  exact (RecordingApi env) : typeclass_instances.

Lemma exec_Boiler_turn_on (os1 os2 : list IObserver) (st : St) :
  exec (Boiler_turn_on (mkBoiler (BoilerSensor os1) (WarmerPlateSensor os2))) st =
  let b := boiler_report env (hw st) in
  let w := warmer_plate_report env (hw st) in
  if b =? BOILER_EMPTY then
    mkState (hw st ++ [Read_boiler b]) (boiler_is_on st)
  else if w =? WARMER_EMPTY then
    mkState (hw st ++ [Read_boiler b; Read_warmer_plate w]) (boiler_is_on st)
  else
    mkState (hw st ++ [Read_boiler b; Read_warmer_plate w;
                       Set_relief_valve VALVE_CLOSED; Set_boiler BOILER_ON]) true.
Proof.
  destruct st as [t f]. cbv zeta.
  unfold boiler_report, warmer_plate_report.
  unfold exec, Boiler_turn_on, can_turn_on, is_empty, pot_present, bind, ret,
    Valve_close, set_is_on, api_write, BoilerSensor, WarmerPlateSensor, api_read.
  cbn.
  destruct (boiler_reading env t =? BOILER_EMPTY) eqn:Eb; cbn.
  - reflexivity.
  - destruct (warmer_plate_reading env (t ++ [Read_boiler (boiler_reading env t)]) =? WARMER_EMPTY) eqn:Ew; cbn.
    + unfold recording_write. rewrite <- app_assoc. reflexivity.
    + unfold recording_write. rewrite <- !app_assoc. reflexivity.
Qed.

Lemma exec_Boiler_turn_off (b : Boiler) (st : St) :
  exec (Boiler_turn_off b) st = mkState (hw st ++ [Set_boiler BOILER_OFF]) false.
Proof. reflexivity. Qed.

Lemma trace_not_longer (t u : Trace) : t = t ++ u -> u = [].
Proof.
  intros E. apply (f_equal (@length event)) in E.
  rewrite length_app in E. destruct u; [reflexivity | simpl in E; lia].
Qed.

(** C1.  [Boiler.turn_on] closes the valve, writes boiler-on and sets
    [is_on] exactly when the boiler sensor answers not-empty and the warmer
    plate sensor answers pot-present at the call; otherwise the writes made
    so far and [is_on] stay as they were.  The call returns in both cases. *)
Theorem Boiler_turn_on_effect_iff (os1 os2 : list IObserver) (st : St) :
  let self := mkBoiler (BoilerSensor os1) (WarmerPlateSensor os2) in
  let st' := exec (Boiler_turn_on self) st in
  ((boiler_not_empty env (hw st) /\ plate_has_pot env (hw st)) <->
   (writes (hw st') =
      writes (hw st) ++ [Set_relief_valve VALVE_CLOSED; Set_boiler BOILER_ON] /\
    boiler_is_on st' = true)) /\
  (~ (boiler_not_empty env (hw st) /\ plate_has_pot env (hw st)) ->
   writes (hw st') = writes (hw st) /\ boiler_is_on st' = boiler_is_on st).
Proof.
  cbv zeta. rewrite exec_Boiler_turn_on. cbv zeta.
  unfold boiler_not_empty, plate_has_pot.
  destruct (boiler_report env (hw st) =? BOILER_EMPTY) eqn:Eb;
    [ apply Z.eqb_eq in Eb | apply Z.eqb_neq in Eb;
      destruct (warmer_plate_report env (hw st) =? WARMER_EMPTY) eqn:Ew;
      [ apply Z.eqb_eq in Ew | apply Z.eqb_neq in Ew ] ];
    cbn [hw boiler_is_on]; rewrite writes_app; cbn [writes filter is_write].
  - rewrite app_nil_r. split; [split|]; intros G.
    + tauto.
    + destruct G as [G _]. apply trace_not_longer in G. discriminate.
    + tauto.
  - rewrite app_nil_r. split; [split|]; intros G.
    + tauto.
    + destruct G as [G _]. apply trace_not_longer in G. discriminate.
    + tauto.
  - split; [split|]; intros G; tauto.
Qed.

(** C5.  When the precondition holds, [Boiler.turn_on] appends to the trace
    the two sensor reads, then the write that closes the relief valve, then
    the boiler-on write: the valve is closed before the boiler is heated. *)
Theorem Boiler_turn_on_closes_valve_first (os1 os2 : list IObserver) (st : St) :
  boiler_not_empty env (hw st) ->
  plate_has_pot env (hw st) ->
  let st' := exec (Boiler_turn_on (mkBoiler (BoilerSensor os1) (WarmerPlateSensor os2))) st in
  hw st' = hw st ++ [Read_boiler (boiler_report env (hw st));
                     Read_warmer_plate (warmer_plate_report env (hw st));
                     Set_relief_valve VALVE_CLOSED; Set_boiler BOILER_ON] /\
  writes (hw st') =
    writes (hw st) ++ [Set_relief_valve VALVE_CLOSED; Set_boiler BOILER_ON].
Proof.
  unfold boiler_not_empty, plate_has_pot. intros Hb Hw0. cbv zeta.
  rewrite exec_Boiler_turn_on. cbv zeta.
  apply Z.eqb_neq in Hb, Hw0. rewrite Hb, Hw0. cbn [hw].
  split; [reflexivity|]. rewrite writes_app. reflexivity.
Qed.

(** C10.  On the branch where nothing is switched, [Boiler.turn_on] still
    reads the boiler sensor, reads the warmer plate sensor as well exactly
    when the boiler answered not-empty, and makes no write. *)
Theorem Boiler_turn_on_noop_reads (os1 os2 : list IObserver) (st : St) :
  ~ (boiler_not_empty env (hw st) /\ plate_has_pot env (hw st)) ->
  let st' := exec (Boiler_turn_on (mkBoiler (BoilerSensor os1) (WarmerPlateSensor os2))) st in
  let b := boiler_report env (hw st) in
  hw st' =
    hw st ++ Read_boiler b ::
      (if b =? BOILER_EMPTY then []
       else [Read_warmer_plate (warmer_plate_report env (hw st))]) /\
  writes (hw st') = writes (hw st) /\
  boiler_is_on st' = boiler_is_on st.
Proof.
  unfold boiler_not_empty, plate_has_pot. intros Hn. cbv zeta.
  rewrite exec_Boiler_turn_on. cbv zeta.
  destruct (boiler_report env (hw st) =? BOILER_EMPTY) eqn:Eb.
  - cbn [hw boiler_is_on]. rewrite writes_app. cbn. rewrite app_nil_r. auto.
  - apply Z.eqb_neq in Eb.
    destruct (warmer_plate_report env (hw st) =? WARMER_EMPTY) eqn:Ew.
    + cbn [hw boiler_is_on]. rewrite writes_app. cbn. rewrite app_nil_r. auto.
    + apply Z.eqb_neq in Ew. tauto.
Qed.

(** C6.  [Boiler.turn_off] appends the boiler-off write and clears [is_on]
    from every state; a second call right after the first writes boiler-off
    again and leaves [is_on] and every commanded actuator state as the
    first call left them. *)
Theorem Boiler_turn_off_unconditional_idempotent (b : Boiler) (st : St) :
  let st1 := exec (Boiler_turn_off b) st in
  let st2 := exec (Boiler_turn_off b) st1 in
  hw st1 = hw st ++ [Set_boiler BOILER_OFF] /\
  boiler_is_on st1 = false /\
  boiler_state (hw st1) = Some BOILER_OFF /\
  hw st2 = hw st1 ++ [Set_boiler BOILER_OFF] /\
  boiler_is_on st2 = boiler_is_on st1 /\
  commanded (hw st2) = commanded (hw st1).
Proof.
  cbv zeta. rewrite !exec_Boiler_turn_off. cbn [hw boiler_is_on].
  repeat split.
  - unfold boiler_state. rewrite last_command_snoc. reflexivity.
  - unfold commanded, boiler_state, warmer_state, indicator_state, valve_state.
    rewrite !last_command_snoc. reflexivity.
Qed.

(** *** The publisher *)

(** Running the observers of a list one after the other on the value [v]. *)
Definition notify_in_order (os : list IObserver) (v : Z) (st : St) : St :=
  fold_left (fun s o => exec (on_observe o v) s) os st.

Lemma exec_for_each_observers (os : list IObserver) (v : Z) (st : St) :
  exec (for_each os (fun o => on_observe o v)) st = notify_in_order os v st.
Proof.
  revert st. induction os as [|o os IH]; intros st.
  - reflexivity.
  - cbn [for_each]. rewrite exec_bind. rewrite IH. reflexivity.
Qed.

Lemma exec_check_status (p : IStatusPublisher) (st : St) :
  exec (check_status p) st =
  notify_in_order (_observers p) (eval (_get_status p) st) (exec (_get_status p) st).
Proof.
  unfold check_status. rewrite exec_bind. apply exec_for_each_observers.
Qed.

(** C7.  A call of [check_status] runs [_get_status] once and then every
    observer of the list, first to last, each on the value just read and on
    the state its predecessor left; for the three sensor classes
    [_get_status] is one read of the sensor, and [add_observer] puts the
    new observer last.  Nothing depends on the value of an earlier poll. *)
Theorem check_status_notifies_all_in_order (p : IStatusPublisher)
  (os : list IObserver) (o : IObserver) (st : St) :
  exec (check_status p) st =
    notify_in_order (_observers p) (eval (_get_status p) st)
                    (exec (_get_status p) st) /\
  (let v := warmer_plate_reading env (hw st) in
   exec (check_status (WarmerPlateSensor os)) st =
     notify_in_order os v
       (mkState (hw st ++ [Read_warmer_plate v]) (boiler_is_on st))) /\
  (let v := boiler_reading env (hw st) in
   exec (check_status (BoilerSensor os)) st =
     notify_in_order os v
       (mkState (hw st ++ [Read_boiler v]) (boiler_is_on st))) /\
  (let v := brew_button_reading env (hw st) in
   exec (check_status (ButtonSensor os)) st =
     notify_in_order os v
       (mkState (hw st ++ [Read_brew_button v]) (boiler_is_on st))) /\
  _observers (add_observer p o) = _observers p ++ [o] /\
  notify_in_order (_observers (add_observer p o)) (eval (_get_status p) st) st =
    exec (on_observe o (eval (_get_status p) st))
         (notify_in_order (_observers p) (eval (_get_status p) st) st).
Proof.
  split; [apply exec_check_status|].
  repeat split; try (cbv zeta; rewrite exec_check_status; reflexivity).
  cbn [add_observer _observers]. unfold notify_in_order.
  rewrite fold_left_app. reflexivity.
Qed.

(** *** The observers of the warmer plate publisher *)

Lemma exec_WarmerPlateObserver (s : Z) (st : St) :
  exec (on_observe WarmerPlateObserver s) st =
  mkState (hw st ++ [Set_warmer (if s =? POT_NOT_EMPTY then WARMER_ON else WARMER_OFF)])
          (boiler_is_on st).
Proof.
  cbn [on_observe WarmerPlateObserver]. unfold on_observe_warmer_plate.
  destruct (s =? POT_NOT_EMPTY); reflexivity.
Qed.

Lemma exec_IndicatorLightWarmerPlateObserver (s : Z) (st : St) :
  exec (on_observe IndicatorLightWarmerPlateObserver s) st =
  mkState (hw st ++ [Set_indicator (if s =? POT_NOT_EMPTY then INDICATOR_ON else INDICATOR_OFF)])
          (boiler_is_on st).
Proof.
  cbn [on_observe IndicatorLightWarmerPlateObserver]. unfold on_warmer_plate_status.
  destruct (s =? POT_NOT_EMPTY); reflexivity.
Qed.

Lemma exec_WarmerPlateStatusValveObserver (s : Z) (st : St) :
  exec (on_observe WarmerPlateStatusValveObserver s) st =
  mkState (hw st ++ [Set_relief_valve (if s =? WARMER_EMPTY then VALVE_OPEN else VALVE_CLOSED)])
          (boiler_is_on st).
Proof.
  cbn [on_observe WarmerPlateStatusValveObserver].
  destruct (s =? WARMER_EMPTY); reflexivity.
Qed.

(** One poll of the warmer plate publisher as [set_up] wires it. *)
Lemma exec_warmer_plate_poll (st : St) :
  exec (check_status (warmer_plate_sensor set_up)) st =
  let s := warmer_plate_reading env (hw st) in
  mkState
    (hw st ++
      [Read_warmer_plate s;
       Set_relief_valve (if s =? WARMER_EMPTY then VALVE_OPEN else VALVE_CLOSED);
       Set_warmer (if s =? POT_NOT_EMPTY then WARMER_ON else WARMER_OFF);
       Set_indicator (if s =? POT_NOT_EMPTY then INDICATOR_ON else INDICATOR_OFF)])
    (boiler_is_on st).
Proof.
  rewrite exec_check_status. cbv zeta.
  cbn [set_up warmer_plate_sensor add_observer WarmerPlateSensor _observers
       _get_status app notify_in_order fold_left].
  rewrite exec_WarmerPlateStatusValveObserver, exec_WarmerPlateObserver,
    exec_IndicatorLightWarmerPlateObserver.
  cbn [hw boiler_is_on]. unfold eval, exec, api_read. cbn.
  rewrite <- !app_assoc. reflexivity.
Qed.

(** C2, as the code has it.  The warmer plate observer switches the warmer
    on exactly when the status it is given is [POT_NOT_EMPTY], and off for
    every other status, [POT_EMPTY] included. *)
Theorem warmer_on_iff_pot_not_empty (s : Z) (st : St) :
  let st' := exec (on_observe WarmerPlateObserver s) st in
  hw st' =
    hw st ++ [Set_warmer (if s =? POT_NOT_EMPTY then WARMER_ON else WARMER_OFF)] /\
  boiler_is_on st' = boiler_is_on st /\
  (warmer_state (hw st') = Some WARMER_ON <-> s = POT_NOT_EMPTY) /\
  (warmer_state (hw st') = Some WARMER_OFF <-> s <> POT_NOT_EMPTY).
Proof.
  cbv zeta. rewrite exec_WarmerPlateObserver. cbn [hw boiler_is_on].
  unfold warmer_state. rewrite last_command_snoc. cbn [warmer_command].
  case_status s POT_NOT_EMPTY; by_codes.
Qed.

(** C3, as the code has it.  After every poll of the warmer plate
    publisher the indicator light is commanded on exactly when the status
    read is [POT_NOT_EMPTY], and commanded off otherwise. *)
Theorem indicator_on_iff_pot_not_empty (st : St) :
  let s := warmer_plate_reading env (hw st) in
  let st' := exec (check_status (warmer_plate_sensor set_up)) st in
  (indicator_state (hw st') = Some INDICATOR_ON <-> s = POT_NOT_EMPTY) /\
  (indicator_state (hw st') = Some INDICATOR_OFF <-> s <> POT_NOT_EMPTY).
Proof.
  cbv zeta. rewrite exec_warmer_plate_poll. cbv zeta. cbn [hw].
  unfold indicator_state, last_command. rewrite fold_left_app.
  cbn [fold_left indicator_command].
  case_status (warmer_plate_reading env (hw st)) POT_NOT_EMPTY; by_codes.
Qed.

(** C4.  After every poll of the warmer plate publisher the relief valve
    is commanded open exactly when the status read is [WARMER_EMPTY] and
    commanded closed otherwise, whatever the boiler flag and the boiler
    sensor say. *)
Theorem valve_open_iff_warmer_empty (st : St) :
  let s := warmer_plate_reading env (hw st) in
  let st' := exec (check_status (warmer_plate_sensor set_up)) st in
  (valve_state (hw st') = Some VALVE_OPEN <-> s = WARMER_EMPTY) /\
  (valve_state (hw st') = Some VALVE_CLOSED <-> s <> WARMER_EMPTY) /\
  boiler_is_on st' = boiler_is_on st.
Proof.
  cbv zeta. rewrite exec_warmer_plate_poll. cbv zeta. cbn [hw boiler_is_on].
  unfold valve_state, last_command. rewrite fold_left_app.
  cbn [fold_left valve_command].
  case_status (warmer_plate_reading env (hw st)) WARMER_EMPTY; by_codes.
Qed.

(** C9.  On the status [POT_EMPTY] the two readings of the warmer plate
    part ways: [pot_present] answers true, so [Boiler.turn_on] goes through
    as soon as the boiler is not empty, while the warmer plate observer
    switches the warmer off and the indicator observer the light off. *)
Theorem pot_empty_splits_pot_present (os1 os2 : list IObserver) (st : St) :
  warmer_plate_reading env (hw st) = POT_EMPTY ->
  boiler_not_empty env (hw st) ->
  warmer_plate_report env (hw st) = POT_EMPTY ->
  let self := mkBoiler (BoilerSensor os1) (WarmerPlateSensor os2) in
  eval (pot_present (WarmerPlateSensor os2)) st = true /\
  hw (exec (Boiler_turn_on self) st) =
    hw st ++ [Read_boiler (boiler_report env (hw st)); Read_warmer_plate POT_EMPTY;
              Set_relief_valve VALVE_CLOSED; Set_boiler BOILER_ON] /\
  boiler_is_on (exec (Boiler_turn_on self) st) = true /\
  hw (exec (on_observe WarmerPlateObserver POT_EMPTY) st) =
    hw st ++ [Set_warmer WARMER_OFF] /\
  hw (exec (on_observe IndicatorLightWarmerPlateObserver POT_EMPTY) st) =
    hw st ++ [Set_indicator INDICATOR_OFF].
Proof.
  intros Hnow Hb Hw0. cbv zeta.
  rewrite exec_Boiler_turn_on, exec_WarmerPlateObserver,
    exec_IndicatorLightWarmerPlateObserver. cbv zeta.
  unfold boiler_not_empty in Hb. apply Z.eqb_neq in Hb. rewrite Hb, Hw0.
  cbn [hw boiler_is_on]. repeat split.
  unfold eval, pot_present, bind, ret, WarmerPlateSensor, api_read. cbn.
  rewrite Hnow. reflexivity.
Qed.

(** *** The boiler and button publishers, and one pass of the loop *)

Lemma boiler_of_set_up :
  boiler (Hw := Trace) set_up =
  mkBoiler (BoilerSensor []) (WarmerPlateSensor [WarmerPlateStatusValveObserver]).
Proof. reflexivity. Qed.

Lemma exec_boiler_poll (st : St) :
  exec (check_status (boiler_sensor set_up)) st =
  let b := boiler_reading env (hw st) in
  if b =? BOILER_EMPTY
  then mkState (hw st ++ [Read_boiler b; Set_boiler BOILER_OFF]) false
  else mkState (hw st ++ [Read_boiler b]) (boiler_is_on st).
Proof.
  rewrite exec_check_status. cbv zeta.
  cbn [set_up boiler_sensor add_observer BoilerSensor _observers _get_status
       app notify_in_order fold_left on_observe BoilerSensorObserver].
  unfold eval, exec at 2, api_read. cbn.
  destruct (boiler_reading env (hw st) =? BOILER_EMPTY).
  - rewrite exec_Boiler_turn_off. cbn [hw]. rewrite <- app_assoc. reflexivity.
  - reflexivity.
Qed.

Lemma exec_button_poll (st : St) :
  exec (check_status (button_sensor set_up)) st =
  let p := brew_button_reading env (hw st) in
  let st1 := mkState (hw st ++ [Read_brew_button p]) (boiler_is_on st) in
  if p =? BREW_BUTTON_PUSHED then exec (Boiler_turn_on (boiler set_up)) st1 else st1.
Proof.
  rewrite exec_check_status. cbv zeta.
  cbn [set_up button_sensor add_observer ButtonSensor _observers _get_status
       app notify_in_order fold_left on_observe BoilerButtonStatusObserver boiler].
  unfold eval, exec at 2, api_read. cbn.
  destruct (brew_button_reading env (hw st) =? BREW_BUTTON_PUSHED); reflexivity.
Qed.

Lemma exec_poll_cycle_set_up (st : St) :
  exec (poll_cycle (publishers_of set_up)) st =
  exec (check_status (button_sensor set_up))
    (exec (check_status (boiler_sensor set_up))
       (exec (check_status (warmer_plate_sensor set_up)) st)).
Proof.
  unfold poll_cycle, publishers_of. cbn [for_each].
  rewrite !exec_bind. reflexivity.
Qed.

(** C8.  In the wired system, if during one pass of the loop the boiler
    sensor never answers empty, the warmer plate sensor never answers empty
    and the brew button answers pushed, then after that pass the relief
    valve is commanded closed, the boiler is commanded on and [is_on] is
    true. *)
Theorem brew_starts_in_one_cycle (st : St) :
  (forall u, boiler_reading env (hw st ++ u) <> BOILER_EMPTY) ->
  (forall u, warmer_plate_reading env (hw st ++ u) <> WARMER_EMPTY) ->
  (forall u, brew_button_reading env (hw st ++ u) = BREW_BUTTON_PUSHED) ->
  let st' := exec (poll_cycle (publishers_of set_up)) st in
  valve_state (hw st') = Some VALVE_CLOSED /\
  boiler_state (hw st') = Some BOILER_ON /\
  boiler_is_on st' = true.
Proof.
  intros Hb Hw0 Hp. cbv zeta.
  rewrite exec_poll_cycle_set_up, exec_warmer_plate_poll. cbv zeta.
  rewrite exec_boiler_poll. cbv zeta. cbn [hw boiler_is_on].
  rewrite (proj2 (Z.eqb_neq _ _) (Hb _)).
  rewrite exec_button_poll. cbv zeta. cbn [hw boiler_is_on].
  rewrite <- !app_assoc. rewrite Hp. rewrite Z.eqb_refl.
  rewrite boiler_of_set_up, exec_Boiler_turn_on. cbv zeta.
  unfold boiler_report, warmer_plate_report. cbn [hw boiler_is_on].
  rewrite <- !app_assoc.
  rewrite (proj2 (Z.eqb_neq _ _) (Hb _)).
  rewrite (proj2 (Z.eqb_neq _ _) (Hw0 _)).
  cbn [hw boiler_is_on].
  unfold valve_state, boiler_state, last_command.
  rewrite !fold_left_app. cbn. auto.
Qed.

End Recording.

(** ** The properties on scripted sensors *)

Definition brewing_sensors : Sensors :=
  constant_sensors POT_NOT_EMPTY BOILER_NOT_EMPTY BREW_BUTTON_PUSHED.

Definition pot_empty_sensors : Sensors :=
  constant_sensors POT_EMPTY BOILER_NOT_EMPTY BREW_BUTTON_NOT_PUSHED.

Definition dry_sensors : Sensors :=
  constant_sensors POT_NOT_EMPTY BOILER_EMPTY BREW_BUTTON_PUSHED.

Definition fresh : State Trace := mkState [] false.

Section PotEmpty.

#[local] Hint Extern 0 (CoffeeMakerApi _) =>
  exact (RecordingApi pot_empty_sensors) : typeclass_instances.

(** C2 as stated fails: with an empty pot on the plate [pot_present] is
    true, yet the poll leaves the warmer commanded off. *)
Lemma warmer_off_although_pot_present :
  eval (pot_present (WarmerPlateSensor [WarmerPlateObserver])) fresh = true /\
  hw (exec (check_status (WarmerPlateSensor [WarmerPlateObserver])) fresh) =
    [Read_warmer_plate POT_EMPTY; Set_warmer WARMER_OFF] /\
  warmer_state
    (hw (exec (check_status (WarmerPlateSensor [WarmerPlateObserver])) fresh)) <>
    Some WARMER_ON.
Proof.
  split; [reflexivity|]. split; [reflexivity|].
  vm_compute. discriminate.
Qed.

(** C3 as stated fails: with an empty pot on the plate [pot_present] is
    true, yet the poll of the wired publisher leaves the light commanded
    off. *)
Lemma indicator_off_although_pot_present :
  eval (pot_present (warmer_plate_sensor set_up)) fresh = true /\
  indicator_state (hw (exec (check_status (warmer_plate_sensor set_up)) fresh)) =
    Some INDICATOR_OFF /\
  indicator_state (hw (exec (check_status (warmer_plate_sensor set_up)) fresh)) <>
    Some INDICATOR_ON.
Proof.
  split; [reflexivity|]. split; [reflexivity|].
  vm_compute. discriminate.
Qed.

Lemma pot_empty_splits_pot_present_witness :
  eval (pot_present (WarmerPlateSensor [])) fresh = true /\
  hw (exec (Boiler_turn_on (mkBoiler (BoilerSensor []) (WarmerPlateSensor []))) fresh) =
    [Read_boiler BOILER_NOT_EMPTY; Read_warmer_plate POT_EMPTY;
     Set_relief_valve VALVE_CLOSED; Set_boiler BOILER_ON] /\
  boiler_is_on
    (exec (Boiler_turn_on (mkBoiler (BoilerSensor []) (WarmerPlateSensor []))) fresh) =
    true /\
  hw (exec (on_observe WarmerPlateObserver POT_EMPTY) fresh) =
    [Set_warmer WARMER_OFF] /\
  hw (exec (on_observe IndicatorLightWarmerPlateObserver POT_EMPTY) fresh) =
    [Set_indicator INDICATOR_OFF].
Proof.
  apply (pot_empty_splits_pot_present pot_empty_sensors [] [] fresh).
  - reflexivity.
  - vm_compute. discriminate.
  - reflexivity.
Defined.

End PotEmpty.

Section Brewing.

#[local] Hint Extern 0 (CoffeeMakerApi _) =>
  exact (RecordingApi brewing_sensors) : typeclass_instances.

Lemma Boiler_turn_on_closes_valve_first_witness :
  hw (exec (Boiler_turn_on (mkBoiler (BoilerSensor []) (WarmerPlateSensor []))) fresh) =
    [Read_boiler BOILER_NOT_EMPTY; Read_warmer_plate POT_NOT_EMPTY;
     Set_relief_valve VALVE_CLOSED; Set_boiler BOILER_ON] /\
  writes (hw (exec (Boiler_turn_on (mkBoiler (BoilerSensor []) (WarmerPlateSensor []))) fresh)) =
    [Set_relief_valve VALVE_CLOSED; Set_boiler BOILER_ON].
Proof.
  apply (Boiler_turn_on_closes_valve_first brewing_sensors [] [] fresh).
  - vm_compute. discriminate.
  - vm_compute. discriminate.
Defined.

Lemma brew_starts_in_one_cycle_witness :
  valve_state (hw (exec (poll_cycle (publishers_of set_up)) fresh)) = Some VALVE_CLOSED /\
  boiler_state (hw (exec (poll_cycle (publishers_of set_up)) fresh)) = Some BOILER_ON /\
  boiler_is_on (exec (poll_cycle (publishers_of set_up)) fresh) = true.
Proof.
  apply (brew_starts_in_one_cycle brewing_sensors fresh).
  - intros u. vm_compute. discriminate.
  - intros u. vm_compute. discriminate.
  - intros u. reflexivity.
Defined.

(** One pass of the wired loop from a fresh start, call by call. *)
Example one_cycle_brewing :
  set_up_and_run 1 [] =
  mkState
    [Read_warmer_plate POT_NOT_EMPTY; Set_relief_valve VALVE_CLOSED;
     Set_warmer WARMER_ON; Set_indicator INDICATOR_ON;
     Read_boiler BOILER_NOT_EMPTY;
     Read_brew_button BREW_BUTTON_PUSHED;
     Read_boiler BOILER_NOT_EMPTY; Read_warmer_plate POT_NOT_EMPTY;
     Set_relief_valve VALVE_CLOSED; Set_boiler BOILER_ON]
    true.
Proof. reflexivity. Qed.

End Brewing.

Section Dry.

#[local] Hint Extern 0 (CoffeeMakerApi _) =>
  exact (RecordingApi dry_sensors) : typeclass_instances.

Lemma Boiler_turn_on_noop_reads_witness :
  hw (exec (Boiler_turn_on (mkBoiler (BoilerSensor []) (WarmerPlateSensor []))) fresh) =
    [Read_boiler BOILER_EMPTY] /\
  writes (hw (exec (Boiler_turn_on (mkBoiler (BoilerSensor []) (WarmerPlateSensor []))) fresh)) =
    [] /\
  boiler_is_on (exec (Boiler_turn_on (mkBoiler (BoilerSensor []) (WarmerPlateSensor []))) fresh) =
    false.
Proof.
  apply (Boiler_turn_on_noop_reads dry_sensors [] [] fresh).
  intros [Hb _]. apply Hb. reflexivity.
Defined.

(** With a dry boiler the button press switches nothing, and the boiler
    poll has written boiler-off. *)
Example one_cycle_dry :
  set_up_and_run 1 [] =
  mkState
    [Read_warmer_plate POT_NOT_EMPTY; Set_relief_valve VALVE_CLOSED;
     Set_warmer WARMER_ON; Set_indicator INDICATOR_ON;
     Read_boiler BOILER_EMPTY; Set_boiler BOILER_OFF;
     Read_brew_button BREW_BUTTON_PUSHED;
     Read_boiler BOILER_EMPTY]
    false.
Proof. reflexivity. Qed.

End Dry.

Section NoPot.

#[local] Hint Extern 0 (CoffeeMakerApi _) =>
  exact (RecordingApi (constant_sensors WARMER_EMPTY BOILER_NOT_EMPTY BREW_BUTTON_PUSHED))
  : typeclass_instances.

(** With water but no pot [Boiler.turn_on] reads both sensors and stops. *)
Example turn_on_without_pot :
  exec (Boiler_turn_on (mkBoiler (BoilerSensor []) (WarmerPlateSensor []))) fresh =
  mkState [Read_boiler BOILER_NOT_EMPTY; Read_warmer_plate WARMER_EMPTY] false.
Proof. reflexivity. Qed.

Example one_cycle_without_pot :
  set_up_and_run 1 [] =
  mkState
    [Read_warmer_plate WARMER_EMPTY; Set_relief_valve VALVE_OPEN;
     Set_warmer WARMER_OFF; Set_indicator INDICATOR_OFF;
     Read_boiler BOILER_NOT_EMPTY;
     Read_brew_button BREW_BUTTON_PUSHED;
     Read_boiler BOILER_NOT_EMPTY; Read_warmer_plate WARMER_EMPTY]
    false.
Proof. reflexivity. Qed.

End NoPot.

(** * Further properties of the wired system *)

(** ** The calls one pass of the loop makes

    The events each publisher's poll adds to the trace, as a function of
    what the sensors answer.  They are proved below to be what the code
    does; the properties of whole runs are then read off these lists. *)

Definition warmer_poll_events (s : Z) : Trace :=
  [Read_warmer_plate s;
   Set_relief_valve (if s =? WARMER_EMPTY then VALVE_OPEN else VALVE_CLOSED);
   Set_warmer (if s =? POT_NOT_EMPTY then WARMER_ON else WARMER_OFF);
   Set_indicator (if s =? POT_NOT_EMPTY then INDICATOR_ON else INDICATOR_OFF)].

Definition boiler_poll_events (b : Z) : Trace :=
  Read_boiler b :: (if b =? BOILER_EMPTY then [Set_boiler BOILER_OFF] else []).

Definition turn_on_events (env : Sensors) (t : Trace) : Trace :=
  let b := boiler_report env t in
  let w := warmer_plate_report env t in
  Read_boiler b ::
    (if b =? BOILER_EMPTY then []
     else Read_warmer_plate w ::
       (if w =? WARMER_EMPTY then []
        else [Set_relief_valve VALVE_CLOSED; Set_boiler BOILER_ON])).

Definition button_poll_events (env : Sensors) (t : Trace) : Trace :=
  let p := brew_button_reading env t in
  Read_brew_button p ::
    (if p =? BREW_BUTTON_PUSHED
     then turn_on_events env (t ++ [Read_brew_button p]) else []).

Definition cycle_events (env : Sensors) (t : Trace) : Trace :=
  let e1 := warmer_poll_events (warmer_plate_reading env t) in
  let e2 := boiler_poll_events (boiler_reading env (t ++ e1)) in
  let e3 := button_poll_events env ((t ++ e1) ++ e2) in
  e1 ++ e2 ++ e3.

Fixpoint run_events (env : Sensors) (n : nat) (t : Trace) : Trace :=
  match n with
  | O => []
  | S n' => cycle_events env t ++ run_events env n' (t ++ cycle_events env t)
  end.

(** The boiler flag after the events [u]: the last boiler command in [u]
    decides, and without one the flag is as before. *)
Definition flag_after (u : Trace) (f : bool) : bool :=
  match boiler_state u with
  | Some v => v =? BOILER_ON
  | None => f
  end.

(** Every boiler-on write in [u] comes right after a boiler read that was
    not empty, a warmer plate read that was not empty and the write that
    closes the relief valve, in this order. *)
Definition guarded (u : Trace) : Prop :=
  forall pre post, u = pre ++ Set_boiler BOILER_ON :: post ->
  exists pre' b w,
    pre = pre' ++ [Read_boiler b; Read_warmer_plate w;
                   Set_relief_valve VALVE_CLOSED] /\
    b <> BOILER_EMPTY /\ w <> WARMER_EMPTY.

Inductive safe : Trace -> Prop :=
| safe_nil : safe []
| safe_skip e t : e <> Set_boiler BOILER_ON -> safe t -> safe (e :: t)
| safe_on b w t :
    b <> BOILER_EMPTY -> w <> WARMER_EMPTY -> safe t ->
    safe (Read_boiler b :: Read_warmer_plate w ::
          Set_relief_valve VALVE_CLOSED :: Set_boiler BOILER_ON :: t).

Definition is_button_read (e : event) : bool :=
  match e with Read_brew_button _ => true | _ => false end.

Definition button_reads (u : Trace) : nat := length (filter is_button_read u).

(** The warmer and the indicator light are commanded alike. *)
Definition in_step (t : Trace) : Prop :=
  (warmer_state t = Some WARMER_ON /\ indicator_state t = Some INDICATOR_ON) \/
  (warmer_state t = Some WARMER_OFF /\ indicator_state t = Some INDICATOR_OFF).

(** [is_on] agrees with the last boiler command. *)
Definition flag_mirrors_command (st : State Trace) : Prop :=
  boiler_is_on st = true <-> boiler_state (hw st) = Some BOILER_ON.

(** ** Lists of events *)

Lemma last_command_app (sel : event -> option Z) (t u : Trace) :
  last_command sel (t ++ u) =
  match last_command sel u with
  | Some v => Some v
  | None => last_command sel t
  end.
Proof.
  induction u as [|e u IH] using rev_ind.
  - rewrite app_nil_r. reflexivity.
  - rewrite app_assoc, !last_command_snoc.
    destruct (sel e); [reflexivity | exact IH].
Qed.

Lemma flag_after_app (u v : Trace) (f : bool) :
  flag_after (u ++ v) f = flag_after v (flag_after u f).
Proof.
  unfold flag_after, boiler_state. rewrite last_command_app.
  destruct (last_command boiler_command v); reflexivity.
Qed.

Lemma safe_app (t u : Trace) : safe t -> safe u -> safe (t ++ u).
Proof.
  intros Ht Hu. induction Ht; cbn [app].
  - exact Hu.
  - apply safe_skip; assumption.
  - apply safe_on; assumption.
Qed.

Lemma safe_guarded (u : Trace) : safe u -> guarded u.
Proof.
  intros Hs. induction Hs as [|e t Hne Hs IH|b w t Hb Hw0 Hs IH];
    intros pre post E.
  - destruct pre; discriminate.
  - destruct pre as [|x pre]; cbn [app] in E.
    + injection E as E1 _. contradiction.
    + injection E as E1 E2. subst x.
      destruct (IH pre post E2) as (pre' & b & w & -> & Hb & Hw0).
      exists (e :: pre'), b, w. repeat split; assumption.
  - destruct pre as [|x1 [|x2 [|x3 [|x4 pre]]]]; cbn [app] in E;
      try discriminate.
    + injection E as E1 E2 E3 _. subst.
      exists [], b, w. repeat split; assumption.
    + injection E as E1 E2 E3 E4 E5. subst x1 x2 x3 x4.
      destruct (IH pre post E5) as (pre' & b' & w' & -> & Hb' & Hw').
      exists (Read_boiler b :: Read_warmer_plate w ::
              Set_relief_valve VALVE_CLOSED :: Set_boiler BOILER_ON :: pre'), b', w'.
      repeat split; assumption.
Qed.

Lemma button_reads_app (t u : Trace) :
  button_reads (t ++ u) = (button_reads t + button_reads u)%nat.
Proof. unfold button_reads. rewrite filter_app, length_app. reflexivity. Qed.

Section Cycles.

Variable env : Sensors.

#[local] Hint Extern 0 (CoffeeMakerApi _) =>
  exact (RecordingApi env) : typeclass_instances.

(** ** What the code adds to the trace *)

Lemma exec_turn_on_events (os1 os2 : list IObserver) (st : State Trace) :
  exec (Boiler_turn_on (mkBoiler (BoilerSensor os1) (WarmerPlateSensor os2))) st =
  mkState (hw st ++ turn_on_events env (hw st))
          (flag_after (turn_on_events env (hw st)) (boiler_is_on st)).
Proof.
  rewrite exec_Boiler_turn_on. cbv zeta. unfold turn_on_events.
  destruct (boiler_report env (hw st) =? BOILER_EMPTY); [reflexivity|].
  destruct (warmer_plate_report env (hw st) =? WARMER_EMPTY); reflexivity.
Qed.

Lemma exec_warmer_poll_events (st : State Trace) :
  exec (check_status (warmer_plate_sensor set_up)) st =
  mkState (hw st ++ warmer_poll_events (warmer_plate_reading env (hw st)))
          (boiler_is_on st).
Proof. rewrite exec_warmer_plate_poll. reflexivity. Qed.

Lemma exec_boiler_poll_events (st : State Trace) :
  exec (check_status (boiler_sensor set_up)) st =
  mkState (hw st ++ boiler_poll_events (boiler_reading env (hw st)))
          (flag_after (boiler_poll_events (boiler_reading env (hw st)))
                      (boiler_is_on st)).
Proof.
  rewrite exec_boiler_poll. cbv zeta. unfold boiler_poll_events.
  destruct (boiler_reading env (hw st) =? BOILER_EMPTY); reflexivity.
Qed.

Lemma exec_button_poll_events (st : State Trace) :
  exec (check_status (button_sensor set_up)) st =
  mkState (hw st ++ button_poll_events env (hw st))
          (flag_after (button_poll_events env (hw st)) (boiler_is_on st)).
Proof.
  rewrite exec_button_poll. cbv zeta. unfold button_poll_events.
  destruct (brew_button_reading env (hw st) =? BREW_BUTTON_PUSHED).
  - rewrite boiler_of_set_up, exec_turn_on_events. cbn [hw boiler_is_on].
    rewrite <- app_assoc. reflexivity.
  - reflexivity.
Qed.

Lemma exec_cycle_events (st : State Trace) :
  exec (poll_cycle (publishers_of set_up)) st =
  mkState (hw st ++ cycle_events env (hw st))
          (flag_after (cycle_events env (hw st)) (boiler_is_on st)).
Proof.
  rewrite exec_poll_cycle_set_up, exec_warmer_poll_events,
    exec_boiler_poll_events, exec_button_poll_events.
  cbn [hw boiler_is_on]. unfold cycle_events. cbv zeta.
  rewrite !flag_after_app, <- !app_assoc. reflexivity.
Qed.

Lemma exec_run_events (n : nat) (st : State Trace) :
  exec (run_event_loop n (publishers_of set_up)) st =
  mkState (hw st ++ run_events env n (hw st))
          (flag_after (run_events env n (hw st)) (boiler_is_on st)).
Proof.
  revert st. induction n as [|n IH]; intros st.
  - cbn [run_event_loop run_events]. rewrite app_nil_r. destruct st; reflexivity.
  - cbn [run_event_loop run_events]. rewrite exec_bind, exec_cycle_events, IH.
    cbn [hw boiler_is_on]. rewrite flag_after_app, <- app_assoc. reflexivity.
Qed.

(** ** The separate polls *)

(** X1.  A poll of the wired boiler publisher switches the boiler off and
    clears [is_on] when the status read is [BOILER_EMPTY]; for every other
    status it only reads. *)
Theorem boiler_poll_turns_off_iff_empty (st : State Trace) :
  let b := boiler_reading env (hw st) in
  let st' := exec (check_status (boiler_sensor set_up)) st in
  (b = BOILER_EMPTY ->
   hw st' = hw st ++ [Read_boiler b; Set_boiler BOILER_OFF] /\
   boiler_is_on st' = false) /\
  (b <> BOILER_EMPTY ->
   hw st' = hw st ++ [Read_boiler b] /\ boiler_is_on st' = boiler_is_on st).
Proof.
  cbv zeta. rewrite exec_boiler_poll. cbv zeta.
  case_status (boiler_reading env (hw st)) BOILER_EMPTY;
    split; intros G; try contradiction; split; reflexivity.
Qed.

(** X2.  A poll of the wired button publisher reads the button once; only
    the status [BREW_BUTTON_PUSHED] leads to [Boiler.turn_on], and for
    every other status no further sensor is read, nothing is written and
    [is_on] stays. *)
Theorem button_poll_acts_only_when_pushed (st : State Trace) :
  let p := brew_button_reading env (hw st) in
  let st1 := mkState (hw st ++ [Read_brew_button p]) (boiler_is_on st) in
  let st' := exec (check_status (button_sensor set_up)) st in
  (p = BREW_BUTTON_PUSHED -> st' = exec (Boiler_turn_on (boiler set_up)) st1) /\
  (p <> BREW_BUTTON_PUSHED -> st' = st1).
Proof.
  cbv zeta. rewrite exec_button_poll. cbv zeta.
  case_status (brew_button_reading env (hw st)) BREW_BUTTON_PUSHED;
    split; intros G; try contradiction; reflexivity.
Qed.

(** X3.  [Boiler.turn_on] asks the two sensors without notifying their
    observers: whatever observers the boiler's sensors carry, the call
    leaves the same state. *)
Theorem turn_on_notifies_no_observer
  (os1 os2 os1' os2' : list IObserver) (st : State Trace) :
  exec (Boiler_turn_on (mkBoiler (BoilerSensor os1) (WarmerPlateSensor os2))) st =
  exec (Boiler_turn_on (mkBoiler (BoilerSensor os1') (WarmerPlateSensor os2'))) st.
Proof. rewrite !exec_turn_on_events. reflexivity. Qed.

(** X4.  A poll of the wired warmer plate publisher reads the sensor once
    and then writes three times, to the relief valve, the warmer and the
    indicator, in the order the observers were registered; it writes
    nothing to the boiler and leaves [is_on] alone. *)
Theorem warmer_poll_writes_in_registration_order (st : State Trace) :
  let s := warmer_plate_reading env (hw st) in
  let st' := exec (check_status (warmer_plate_sensor set_up)) st in
  hw st' =
    hw st ++
      [Read_warmer_plate s;
       Set_relief_valve (if s =? WARMER_EMPTY then VALVE_OPEN else VALVE_CLOSED);
       Set_warmer (if s =? POT_NOT_EMPTY then WARMER_ON else WARMER_OFF);
       Set_indicator (if s =? POT_NOT_EMPTY then INDICATOR_ON else INDICATOR_OFF)] /\
  boiler_state (hw st') = boiler_state (hw st) /\
  boiler_is_on st' = boiler_is_on st.
Proof.
  cbv zeta. rewrite exec_warmer_poll_events. cbn [hw boiler_is_on].
  repeat split. unfold boiler_state. rewrite last_command_app. reflexivity.
Qed.

(** ** Whole runs *)

Lemma safe_turn_on_events (t : Trace) : safe (turn_on_events env t).
Proof.
  unfold turn_on_events. cbv zeta.
  case_status (boiler_report env t) BOILER_EMPTY.
  - apply safe_skip; [discriminate | apply safe_nil].
  - case_status (warmer_plate_report env t) WARMER_EMPTY.
    + repeat (apply safe_skip; [discriminate|]). apply safe_nil.
    + apply safe_on; [assumption | assumption | apply safe_nil].
Qed.

Lemma safe_cycle_events (t : Trace) : safe (cycle_events env t).
Proof.
  unfold cycle_events. cbv zeta. repeat apply safe_app.
  - unfold warmer_poll_events.
    repeat (apply safe_skip; [discriminate|]). apply safe_nil.
  - unfold boiler_poll_events.
    destruct (_ =? BOILER_EMPTY);
      repeat (apply safe_skip; [discriminate|]); apply safe_nil.
  - unfold button_poll_events. cbv zeta.
    apply safe_skip; [discriminate|].
    destruct (_ =? BREW_BUTTON_PUSHED);
      [apply safe_turn_on_events | apply safe_nil].
Qed.

Lemma safe_run_events (n : nat) (t : Trace) : safe (run_events env n t).
Proof.
  revert t. induction n as [|n IH]; intros t; cbn [run_events].
  - apply safe_nil.
  - apply safe_app; [apply safe_cycle_events | apply IH].
Qed.

(** X5.  However long the wired loop runs and whatever the sensors answer,
    every boiler-on write it makes comes right after a boiler read that was
    not empty, a warmer plate read that was not empty and the write that
    closes the relief valve. *)
Theorem boiler_on_only_after_checks (n : nat) (st : State Trace) :
  exists u,
    hw (exec (run_event_loop n (publishers_of set_up)) st) = hw st ++ u /\
    guarded u.
Proof.
  exists (run_events env n (hw st)). rewrite exec_run_events. cbn [hw].
  split; [reflexivity|]. apply safe_guarded, safe_run_events.
Qed.

Lemma flag_mirrors_after (t u : Trace) (f : bool) :
  flag_mirrors_command (mkState t f) ->
  flag_mirrors_command (mkState (t ++ u) (flag_after u f)).
Proof.
  unfold flag_mirrors_command, flag_after, boiler_state. cbn [hw boiler_is_on].
  intros Inv. rewrite last_command_app.
  destruct (last_command boiler_command u) as [v|]; [|exact Inv].
  unfold BOILER_ON. split; intros G.
  - apply Z.eqb_eq in G. subst v. reflexivity.
  - injection G as ->. reflexivity.
Qed.

(** X6.  The wired loop keeps [is_on] in agreement with the last command
    written to the boiler: if [is_on] is true exactly when that command is
    boiler-on before the run, the same holds after any number of passes. *)
Theorem is_on_mirrors_last_boiler_command (n : nat) (st : State Trace) :
  flag_mirrors_command st ->
  flag_mirrors_command (exec (run_event_loop n (publishers_of set_up)) st).
Proof.
  intros Inv. rewrite exec_run_events. apply flag_mirrors_after.
  destruct st; exact Inv.
Qed.

Lemma button_reads_turn_on_events (t : Trace) :
  button_reads (turn_on_events env t) = 0%nat.
Proof.
  unfold turn_on_events. cbv zeta.
  destruct (_ =? BOILER_EMPTY); [reflexivity|].
  destruct (_ =? WARMER_EMPTY); reflexivity.
Qed.

Lemma button_reads_cycle_events (t : Trace) :
  button_reads (cycle_events env t) = 1%nat.
Proof.
  unfold cycle_events. cbv zeta. rewrite !button_reads_app.
  unfold button_poll_events. cbv zeta.
  change (button_reads (Read_brew_button ?p :: ?l)) with (S (button_reads l)).
  replace (button_reads (boiler_poll_events _)) with 0%nat
    by (unfold boiler_poll_events; destruct (_ =? BOILER_EMPTY); reflexivity).
  destruct (_ =? BREW_BUTTON_PUSHED).
  - rewrite button_reads_turn_on_events. reflexivity.
  - reflexivity.
Qed.

(** X7.  The wired loop reads the brew button exactly once per pass, also
    in the passes where [Boiler.turn_on] reads the other two sensors a
    second time: after [n] passes the trace holds [n] more button reads. *)
Theorem button_read_once_per_cycle (n : nat) (st : State Trace) :
  button_reads (hw (exec (run_event_loop n (publishers_of set_up)) st)) =
  (button_reads (hw st) + n)%nat.
Proof.
  rewrite exec_run_events. cbn [hw]. rewrite button_reads_app. f_equal.
  generalize (hw st). induction n as [|n IH]; intros t; cbn [run_events].
  - reflexivity.
  - rewrite button_reads_app, button_reads_cycle_events, IH. reflexivity.
Qed.

Lemma run_events_snoc (n : nat) (t : Trace) :
  run_events env (S n) t =
  run_events env n t ++ cycle_events env (t ++ run_events env n t).
Proof.
  revert t. induction n as [|n IH]; intros t.
  - cbn [run_events]. rewrite !app_nil_r. reflexivity.
  - change (run_events env (S (S n)) t)
      with (cycle_events env t ++ run_events env (S n) (t ++ cycle_events env t)).
    rewrite IH. cbn [run_events]. rewrite <- !app_assoc. reflexivity.
Qed.

Lemma warmer_state_cycle_events (t : Trace) :
  warmer_state (cycle_events env t) =
  Some (if warmer_plate_reading env t =? POT_NOT_EMPTY then WARMER_ON else WARMER_OFF).
Proof.
  unfold cycle_events, button_poll_events, turn_on_events, boiler_poll_events.
  cbv zeta.
  destruct (_ =? BOILER_EMPTY); destruct (_ =? BREW_BUTTON_PUSHED);
    try destruct (_ =? BOILER_EMPTY); try destruct (_ =? WARMER_EMPTY);
    reflexivity.
Qed.

Lemma indicator_state_cycle_events (t : Trace) :
  indicator_state (cycle_events env t) =
  Some (if warmer_plate_reading env t =? POT_NOT_EMPTY
        then INDICATOR_ON else INDICATOR_OFF).
Proof.
  unfold cycle_events, button_poll_events, turn_on_events, boiler_poll_events.
  cbv zeta.
  destruct (_ =? BOILER_EMPTY); destruct (_ =? BREW_BUTTON_PUSHED);
    try destruct (_ =? BOILER_EMPTY); try destruct (_ =? WARMER_EMPTY);
    reflexivity.
Qed.

(** X8.  After at least one pass of the wired loop the warmer and the
    indicator light are commanded alike, both on or both off, whatever the
    sensors answered and whatever was commanded before. *)
Theorem warmer_and_indicator_in_step (n : nat) (st : State Trace) :
  in_step (hw (exec (run_event_loop (S n) (publishers_of set_up)) st)).
Proof.
  rewrite exec_run_events. cbn [hw]. rewrite run_events_snoc.
  unfold in_step, warmer_state, indicator_state.
  rewrite !app_assoc, !(last_command_app _ _ (cycle_events _ _)).
  fold (warmer_state (cycle_events env (hw st ++ run_events env n (hw st)))).
  fold (indicator_state (cycle_events env (hw st ++ run_events env n (hw st)))).
  rewrite warmer_state_cycle_events, indicator_state_cycle_events.
  destruct (_ =? POT_NOT_EMPTY); [left | right]; split; reflexivity.
Qed.

Lemma last_command_In (sel : event -> option Z) (u : Trace) (v : Z) :
  last_command sel u = Some v -> exists e, In e u /\ sel e = Some v.
Proof.
  induction u as [|e u IH] using rev_ind; intros E.
  - discriminate.
  - rewrite last_command_snoc in E. destruct (sel e) as [v'|] eqn:Es.
    + injection E as ->. exists e. split; [|exact Es].
      apply in_or_app. right. left. reflexivity.
    + destruct (IH E) as (e' & Hin & Hsel). exists e'. split; [|exact Hsel].
      apply in_or_app. left. exact Hin.
Qed.

Lemma flag_after_without_on (u : Trace) (f : bool) :
  ~ In (Set_boiler BOILER_ON) u -> flag_after u f = true -> f = true.
Proof.
  unfold flag_after, boiler_state. intros Hno E.
  destruct (last_command boiler_command u) as [v|] eqn:El; [|exact E].
  apply Z.eqb_eq in E. subst v.
  destruct (last_command_In _ _ _ El) as (e & Hin & Hsel).
  destruct e; try discriminate. injection Hsel as ->. contradiction.
Qed.

Lemma cycle_events_without_button (t : Trace) :
  brew_button_reading env
    ((t ++ warmer_poll_events (warmer_plate_reading env t)) ++
     boiler_poll_events
       (boiler_reading env (t ++ warmer_poll_events (warmer_plate_reading env t))))
    <> BREW_BUTTON_PUSHED ->
  ~ In (Set_boiler BOILER_ON) (cycle_events env t).
Proof.
  intros Hp. apply Z.eqb_neq in Hp.
  unfold cycle_events, button_poll_events. cbv zeta. rewrite Hp.
  unfold warmer_poll_events, boiler_poll_events.
  destruct (_ =? BOILER_EMPTY); cbn; intuition discriminate.
Qed.

Lemma run_events_without_button (n : nat) (t : Trace) :
  (forall u, brew_button_reading env (t ++ u) <> BREW_BUTTON_PUSHED) ->
  ~ In (Set_boiler BOILER_ON) (run_events env n t).
Proof.
  revert t. induction n as [|n IH]; intros t Hp; cbn [run_events].
  - intros [].
  - intros Hin. apply in_app_or in Hin. destruct Hin as [Hin|Hin].
    + revert Hin. apply cycle_events_without_button.
      rewrite <- app_assoc. apply Hp.
    + revert Hin. apply IH. intros u. rewrite <- app_assoc. apply Hp.
Qed.

(** X9.  As long as the brew button never answers pushed, the wired loop
    writes no boiler-on, however many passes it makes, and [is_on] cannot
    become true. *)
Theorem no_boiler_on_without_button (n : nat) (st : State Trace) :
  (forall u, brew_button_reading env (hw st ++ u) <> BREW_BUTTON_PUSHED) ->
  let st' := exec (run_event_loop n (publishers_of set_up)) st in
  (exists u, hw st' = hw st ++ u /\ ~ In (Set_boiler BOILER_ON) u) /\
  (boiler_is_on st' = true -> boiler_is_on st = true).
Proof.
  intros Hp. cbv zeta. rewrite exec_run_events. cbn [hw boiler_is_on].
  pose proof (run_events_without_button n (hw st) Hp) as Hno. split.
  - exists (run_events env n (hw st)). split; [reflexivity | exact Hno].
  - apply flag_after_without_on. exact Hno.
Qed.

(** X10.  If the boiler sensor answers empty throughout one pass of the
    wired loop, the pass ends with the boiler commanded off and [is_on]
    false, and writes no boiler-on, whether or not the button was pushed. *)
Theorem dry_boiler_stays_off (st : State Trace) :
  (forall u, boiler_reading env (hw st ++ u) = BOILER_EMPTY) ->
  let st' := exec (poll_cycle (publishers_of set_up)) st in
  boiler_is_on st' = false /\
  boiler_state (hw st') = Some BOILER_OFF /\
  exists u, hw st' = hw st ++ u /\ ~ In (Set_boiler BOILER_ON) u.
Proof.
  intros Hb. cbv zeta. rewrite exec_cycle_events. cbn [hw boiler_is_on].
  assert (E : cycle_events env (hw st) =
    warmer_poll_events (warmer_plate_reading env (hw st)) ++
    [Read_boiler BOILER_EMPTY; Set_boiler BOILER_OFF] ++
    Read_brew_button
      (brew_button_reading env
        ((hw st ++ warmer_poll_events (warmer_plate_reading env (hw st))) ++
         [Read_boiler BOILER_EMPTY; Set_boiler BOILER_OFF])) ::
    (if brew_button_reading env
        ((hw st ++ warmer_poll_events (warmer_plate_reading env (hw st))) ++
         [Read_boiler BOILER_EMPTY; Set_boiler BOILER_OFF]) =? BREW_BUTTON_PUSHED
     then [Read_boiler BOILER_EMPTY] else [])).
  { unfold cycle_events, button_poll_events, turn_on_events, boiler_report.
    cbv zeta. rewrite Hb. unfold boiler_poll_events at 1 2 3.
    cbn [Z.eqb BOILER_EMPTY]. rewrite <- !app_assoc. rewrite !Hb.
    reflexivity. }
  rewrite E. clear E.
  destruct (_ =? BREW_BUTTON_PUSHED).
  - split; [reflexivity|]. split.
    + unfold boiler_state. rewrite last_command_app. reflexivity.
    + eexists. split; [reflexivity|]. cbn. intuition discriminate.
  - split; [reflexivity|]. split.
    + unfold boiler_state. rewrite last_command_app. reflexivity.
    + eexists. split; [reflexivity|]. cbn. intuition discriminate.
Qed.

(** X11.  If during one pass of the wired loop the warmer plate sensor
    answers empty and the boiler sensor never answers empty, the pass opens
    the relief valve and switches the warmer and the light off, but writes
    nothing to the boiler: a boiler that was on stays on, pushed button or
    not. *)
Theorem pot_removed_opens_valve_only (st : State Trace) :
  (forall u, warmer_plate_reading env (hw st ++ u) = WARMER_EMPTY) ->
  (forall u, boiler_reading env (hw st ++ u) <> BOILER_EMPTY) ->
  let st' := exec (poll_cycle (publishers_of set_up)) st in
  valve_state (hw st') = Some VALVE_OPEN /\
  warmer_state (hw st') = Some WARMER_OFF /\
  indicator_state (hw st') = Some INDICATOR_OFF /\
  boiler_state (hw st') = boiler_state (hw st) /\
  boiler_is_on st' = boiler_is_on st.
Proof.
  intros Hw0 Hb. cbv zeta. rewrite exec_cycle_events. cbn [hw boiler_is_on].
  assert (E : exists b p, b <> BOILER_EMPTY /\
    cycle_events env (hw st) =
    warmer_poll_events WARMER_EMPTY ++ [Read_boiler b] ++
    Read_brew_button p ::
    (if p =? BREW_BUTTON_PUSHED
     then [Read_boiler
             (boiler_reading env
                (hw st ++ warmer_poll_events WARMER_EMPTY ++ [Read_boiler b] ++
                 [Read_brew_button p]));
           Read_warmer_plate WARMER_EMPTY]
     else [])).
  { pose proof (Hw0 []) as Hw1. rewrite app_nil_r in Hw1.
    eexists. eexists. split; [apply (Hb (warmer_poll_events WARMER_EMPTY))|].
    unfold cycle_events, button_poll_events, turn_on_events, boiler_report,
      warmer_plate_report.
    cbv zeta. rewrite Hw1. unfold boiler_poll_events.
    rewrite (proj2 (Z.eqb_neq _ _) (Hb _)).
    rewrite <- !app_assoc.
    rewrite (proj2 (Z.eqb_neq _ _) (Hb _)). rewrite !Hw0.
    reflexivity. }
  destruct E as (b & p & Hbne & E). rewrite E. clear E.
  unfold valve_state, warmer_state, indicator_state, boiler_state, flag_after,
    boiler_state.
  rewrite !last_command_app.
  destruct (p =? BREW_BUTTON_PUSHED); repeat split; reflexivity.
Qed.

End Cycles.

(** ** The loop over any hardware *)

Section Loop.

Context {Hw : Type}.

Lemma exec_for_each_app {A : Type} (l1 l2 : list A) (f : A -> M Hw unit)
  (st : State Hw) :
  exec (for_each (l1 ++ l2) f) st = exec (for_each l2 f) (exec (for_each l1 f) st).
Proof.
  revert st. induction l1 as [|a l1 IH]; intros st; cbn [app for_each].
  - reflexivity.
  - rewrite !exec_bind. apply IH.
Qed.

(** X12.  Polling a list of publishers that is the concatenation of two
    lists is polling the first list and then the second, on the state the
    first left. *)
Theorem poll_cycle_app (ps1 ps2 : list (@IStatusPublisher Hw)) (st : State Hw) :
  exec (poll_cycle (ps1 ++ ps2)) st =
  exec (poll_cycle ps2) (exec (poll_cycle ps1) st).
Proof. unfold poll_cycle. apply exec_for_each_app. Qed.


(** X14.  With no publisher to poll the event loop touches neither the
    hardware nor the boiler flag, however many passes it makes. *)
Theorem run_event_loop_no_publishers (n : nat) (st : State Hw) :
  run_event_loop n (@nil (@IStatusPublisher Hw)) st = (tt, st).
Proof.
  induction n as [|n IH]; cbn [run_event_loop].
  - reflexivity.
  - unfold bind, poll_cycle. cbn [for_each ret]. exact IH.
Qed.

End Loop.

(** ** Whole runs on scripted sensors *)

Definition no_pot_sensors : Sensors :=
  constant_sensors WARMER_EMPTY BOILER_NOT_EMPTY BREW_BUTTON_PUSHED.

(** A boiler that was switched on by an earlier pass. *)
Definition heating : State Trace :=
  mkState [Set_relief_valve VALVE_CLOSED; Set_boiler BOILER_ON] true.

Section BrewingRuns.

#[local] Hint Extern 0 (CoffeeMakerApi _) =>
  exact (RecordingApi brewing_sensors) : typeclass_instances.

Lemma is_on_mirrors_last_boiler_command_witness :
  flag_mirrors_command (exec (run_event_loop 2 (publishers_of set_up)) fresh).
Proof.
  apply (is_on_mirrors_last_boiler_command brewing_sensors 2 fresh).
  split; intros G; vm_compute in G; discriminate.
Defined.

End BrewingRuns.

Section IdleRuns.

#[local] Hint Extern 0 (CoffeeMakerApi _) =>
  exact (RecordingApi pot_empty_sensors) : typeclass_instances.

Lemma no_boiler_on_without_button_witness :
  (exists u,
     hw (exec (run_event_loop 3 (publishers_of set_up)) fresh) = hw fresh ++ u /\
     ~ In (Set_boiler BOILER_ON) u) /\
  (boiler_is_on (exec (run_event_loop 3 (publishers_of set_up)) fresh) = true ->
   boiler_is_on fresh = true).
Proof.
  apply (no_boiler_on_without_button pot_empty_sensors 3 fresh).
  intros u. vm_compute. discriminate.
Defined.

End IdleRuns.

Section DryRuns.

#[local] Hint Extern 0 (CoffeeMakerApi _) =>
  exact (RecordingApi dry_sensors) : typeclass_instances.

Lemma dry_boiler_stays_off_witness :
  boiler_is_on (exec (poll_cycle (publishers_of set_up)) heating) = false /\
  boiler_state (hw (exec (poll_cycle (publishers_of set_up)) heating)) =
    Some BOILER_OFF /\
  exists u,
    hw (exec (poll_cycle (publishers_of set_up)) heating) = hw heating ++ u /\
    ~ In (Set_boiler BOILER_ON) u.
Proof.
  apply (dry_boiler_stays_off dry_sensors heating).
  intros u. reflexivity.
Defined.

End DryRuns.

Section NoPotRuns.

#[local] Hint Extern 0 (CoffeeMakerApi _) =>
  exact (RecordingApi no_pot_sensors) : typeclass_instances.

Lemma pot_removed_opens_valve_only_witness :
  valve_state (hw (exec (poll_cycle (publishers_of set_up)) heating)) =
    Some VALVE_OPEN /\
  warmer_state (hw (exec (poll_cycle (publishers_of set_up)) heating)) =
    Some WARMER_OFF /\
  indicator_state (hw (exec (poll_cycle (publishers_of set_up)) heating)) =
    Some INDICATOR_OFF /\
  boiler_state (hw (exec (poll_cycle (publishers_of set_up)) heating)) =
    boiler_state (hw heating) /\
  boiler_is_on (exec (poll_cycle (publishers_of set_up)) heating) =
    boiler_is_on heating.
Proof.
  apply (pot_removed_opens_valve_only no_pot_sensors heating).
  - intros u. reflexivity.
  - intros u. vm_compute. discriminate.
Defined.

(** The pot is taken away while the boiler heats: the valve opens, the
    boiler is left on. *)
Example pot_removed_while_heating :
  exec (poll_cycle (publishers_of set_up)) heating =
  mkState
    [Set_relief_valve VALVE_CLOSED; Set_boiler BOILER_ON;
     Read_warmer_plate WARMER_EMPTY; Set_relief_valve VALVE_OPEN;
     Set_warmer WARMER_OFF; Set_indicator INDICATOR_OFF;
     Read_boiler BOILER_NOT_EMPTY;
     Read_brew_button BREW_BUTTON_PUSHED;
     Read_boiler BOILER_NOT_EMPTY; Read_warmer_plate WARMER_EMPTY]
    true.
Proof. reflexivity. Qed.

End NoPotRuns.
